(** * kpi-echo-go: request instrumentation and service lifecycle of main.go

    A shallow embedding of [main.go]: the two Prometheus metrics it declares,
    the [metricsMiddleware] that feeds them, and the start-up sequence of
    [main] with Go's panic / [os.Exit] / [defer] control flow written out.

    Conventions.
    - A [time.Time] is an instant in nanoseconds and a [time.Duration] a number
      of nanoseconds (as in Go); the [float64] seconds handed to
      [Histogram.Observe] are kept as that exact number of nanoseconds, and
      bucket bounds are written in nanoseconds too. Floating point is not
      computed: the text of a histogram's [float64] sum is left open.
    - A Go [error] is its message; [nil] is [None].
    - Packages that [main.go] only imports (configuration, repository,
      migration, router, middlewares) are not modelled: what each call does is
      a field of the [World] the program runs in. *)

From Stdlib Require Import ZArith NArith List String Ascii Bool Lia DecimalString.
Import ListNotations.
Local Open Scope string_scope.
Local Open Scope list_scope.
Local Open Scope Z_scope.

Set Implicit Arguments.

Definition error := string.
Definition Time := Z.
Definition Duration := Z.

(** ** The Prometheus client objects used by main.go *)

Module Prometheus.

(** [prometheus.DefBuckets]:
    [.005, .01, .025, .05, .1, .25, .5, 1, 2.5, 5, 10] seconds. *)
Definition DefBuckets : list Duration :=
  [ 5000000; 10000000; 25000000; 50000000; 100000000; 250000000;
    500000000; 1000000000; 2500000000; 5000000000; 10000000000 ].

Record HistogramOpts := {
  hName : string;
  hHelp : string;
  Buckets : list Duration
}.

Record CounterOpts := {
  cName : string;
  cHelp : string
}.

(** A histogram keeps one count per upper bound (not cumulative) and the
    number of observations; observations above the last bound are counted
    in [hcount] only. The client library also keeps the sum of the observed
    seconds as a [float64]: here [hobserved] is the observations it was
    built from, latest first, and [hsum] their exact total. *)
Record Histogram := {
  hopts : HistogramOpts;
  hbuckets : list N;
  hobserved : list Duration;
  hsum : Duration;
  hcount : N
}.

Record Counter := {
  copts : CounterOpts;
  cvalue : N
}.

Definition NewHistogram (o : HistogramOpts) : Histogram :=
  {| hopts := o; hbuckets := map (fun _ => 0%N) (Buckets o);
     hobserved := []; hsum := 0; hcount := 0%N |}.

Definition NewCounter (o : CounterOpts) : Counter :=
  {| copts := o; cvalue := 0%N |}.

(** Index of the first upper bound that is at least [v]
    ([sort.SearchFloat64s]); the number of bounds when there is none. *)
Fixpoint searchBounds (bounds : list Duration) (v : Duration) : nat :=
  match bounds with
  | [] => O
  | b :: rest => if v <=? b then O else S (searchBounds rest v)
  end.

Fixpoint bump (i : nat) (counts : list N) : list N :=
  match counts, i with
  | [], _ => []
  | c :: rest, O => N.succ c :: rest
  | c :: rest, S j => c :: bump j rest
  end.

Definition Observe (v : Duration) (h : Histogram) : Histogram :=
  {| hopts := hopts h;
     hbuckets := bump (searchBounds (Buckets (hopts h)) v) (hbuckets h);
     hobserved := v :: hobserved h;
     hsum := hsum h + v;
     hcount := N.succ (hcount h) |}.

Definition Inc (c : Counter) : Counter :=
  {| copts := copts c; cvalue := N.succ (cvalue c) |}.

(** *** Text exposition

    Counts are integers. A bucket bound is written as the exact decimal of
    its seconds, which is what the shortest-float formatting of the client
    library gives for each of [DefBuckets]. The text of the [float64] sum
    is not computed here: the writer is handed it. *)

Definition fmtN (n : N) : string := NilZero.string_of_uint (N.to_uint n).

Definition digit (d : Z) : ascii := ascii_of_N (48 + Z.to_N (d mod 10)).

Fixpoint fraction (fuel : nat) (f scale : Z) : string :=
  match fuel with
  | O => EmptyString
  | S k =>
      if f =? 0 then EmptyString
      else String (digit (f / scale)) (fraction k (f mod scale) (scale / 10))
  end.

Definition fmtBound (ns : Duration) : string :=
  let a := Z.abs ns in
  let whole := fmtN (Z.to_N (a / 1000000000)) in
  let frac := a mod 1000000000 in
  ((if Z.ltb ns 0 then "-" else EmptyString) ++
   (if Z.eqb frac 0 then whole
    else whole ++ "." ++ fraction 9 frac 100000000))%string.

(** Cumulative counts, one per upper bound. *)
Fixpoint cumulative (acc : N) (counts : list N) : list N :=
  match counts with
  | [] => []
  | c :: rest => (acc + c)%N :: cumulative (acc + c)%N rest
  end.

(** The double-quote character that encloses a label value. *)
Definition dquote : string := String (ascii_of_N 34) EmptyString.

Definition leLabel (name bound : string) : string :=
  (name ++ "_bucket{le=" ++ dquote ++ bound ++ dquote ++ "} ")%string.

Definition bucketLine (name : string) (bc : Duration * N) : string :=
  (leLabel name (fmtBound (fst bc)) ++ fmtN (snd bc))%string.

Definition writeHistogram (sumText : string) (h : Histogram) : list string :=
  let name := hName (hopts h) in
  [ ("# HELP " ++ name ++ " " ++ hHelp (hopts h))%string;
    ("# TYPE " ++ name ++ " histogram")%string ]
  ++ map (bucketLine name)
       (combine (Buckets (hopts h)) (cumulative 0%N (hbuckets h)))
  ++ [ (leLabel name "+Inf" ++ fmtN (hcount h))%string;
       (name ++ "_sum " ++ sumText)%string;
       (name ++ "_count " ++ fmtN (hcount h))%string ].

Definition writeCounter (c : Counter) : list string :=
  let name := cName (copts c) in
  [ ("# HELP " ++ name ++ " " ++ cHelp (copts c))%string;
    ("# TYPE " ++ name ++ " counter")%string;
    (name ++ " " ++ fmtN (cvalue c))%string ].

End Prometheus.

(** ** The state a request runs in *)

(** The response under construction ([echo.Response]). *)
Record Response := {
  Committed : bool;
  Status : Z;
  body : list string
}.

Definition emptyResponse : Response :=
  {| Committed := false; Status := 200; body := [] |}.

(** The two package-level metrics of main.go (lines 27 to 38); the default
    registry, as the names of the metric families registered in it, those
    of other packages (the Go runtime and process collectors, the handler's
    own) included; what the collectors of other packages expose at this
    moment for a family of theirs; the text of the [float64] sum of given
    observations ([strconv.FormatFloat] in shortest form: floating point is
    not computed here); the wall clock, the response, and the errors handed
    so far to the server's [HTTPErrorHandler] (latest first). *)
Record RState := {
  now : Time;
  requestDuration : Prometheus.Histogram;
  errorCounter : Prometheus.Counter;
  registered : list string;
  collected : string -> list string;
  floatText : list Duration -> string;
  response : Response;
  errorHandled : list error
}.

Definition setMetrics (h : Prometheus.Histogram) (c : Prometheus.Counter)
    (s : RState) : RState :=
  {| now := now s; requestDuration := h; errorCounter := c;
     registered := registered s; collected := collected s;
     floatText := floatText s; response := response s;
     errorHandled := errorHandled s |}.

Definition setResponse (r : Response) (s : RState) : RState :=
  {| now := now s; requestDuration := requestDuration s;
     errorCounter := errorCounter s; registered := registered s;
     collected := collected s; floatText := floatText s;
     response := r; errorHandled := errorHandled s |}.

(** [echo.Context]: the request, and the server's error handler that
    [c.Error] forwards to. *)
Record Context := {
  Method : string;
  Path : string;
  HTTPErrorHandler : error -> Response -> Response
}.

Definition HandlerFunc := Context -> RState -> option error * RState.
Definition MiddlewareFunc := HandlerFunc -> HandlerFunc.

(** [c.Error(err)] is [c.echo.HTTPErrorHandler(err, c)]. *)
Definition handleError (c : Context) (err : error) (s : RState) : RState :=
  {| now := now s; requestDuration := requestDuration s;
     errorCounter := errorCounter s; registered := registered s;
     collected := collected s; floatText := floatText s;
     response := HTTPErrorHandler c err (response s);
     errorHandled := err :: errorHandled s |}.

(** ** Lines 27 to 44: the metrics and their registration *)

Definition requestDuration0 : Prometheus.Histogram :=
  Prometheus.NewHistogram
    {| Prometheus.hName := "http_request_duration_seconds";
       Prometheus.hHelp := "Duration of HTTP requests in seconds";
       Prometheus.Buckets := Prometheus.DefBuckets |}.

Definition errorCounter0 : Prometheus.Counter :=
  Prometheus.NewCounter
    {| Prometheus.cName := "http_errors_total";
       Prometheus.cHelp := "Total number of HTTP errors" |}.

(** [prometheus.MustRegister]: the collector's name joins the registry;
    registering a name twice panics ([None]). *)
Definition MustRegister (name : string) (reg : list string)
    : option (list string) :=
  if existsb (String.eqb name) reg then None else Some (reg ++ [name]).

(** [func init()]. *)
Definition init (reg : list string) : option (list string) :=
  match MustRegister (Prometheus.hName (Prometheus.hopts requestDuration0)) reg with
  | Some reg1 =>
      MustRegister (Prometheus.cName (Prometheus.copts errorCounter0)) reg1
  | None => None
  end.

(** What the process finds before [init] runs: the families that the
    default registry already holds, what their collectors expose, and the
    formatting of float sums. *)
Record Runtime := {
  families : list string;
  expose : string -> list string;
  formatSum : list Duration -> string
}.

(** The state of the process when [main] starts: [init] has run on the
    default registry (had it panicked, there would be no [main]). *)
Definition bootState (rt : Runtime) (t : Time) : RState :=
  {| now := t;
     requestDuration := requestDuration0;
     errorCounter := errorCounter0;
     registered :=
       match init (families rt) with Some r => r | None => families rt end;
     collected := expose rt;
     floatText := formatSum rt;
     response := emptyResponse;
     errorHandled := [] |}.

(** ** Lines 46 to 64: metricsMiddleware

    The closure returned by [metricsMiddleware] is written as a program over
    the operations it performs, so that a run yields, besides the returned
    error and the final state, the list of operations that took place. *)

Inductive op : Type -> Type :=
| time_Now : op Time
| call_next : op (option error)
| c_Error : error -> op unit
| errorCounter_Inc : op unit
| time_Since : Time -> op Duration
| requestDuration_Observe : Duration -> op unit.

Inductive prog (A : Type) : Type :=
| Return : A -> prog A
| Do : forall X : Type, op X -> (X -> prog A) -> prog A.

Arguments Return {A} _.
Arguments Do {A X} _ _.

Fixpoint bind {A B} (p : prog A) (k : A -> prog B) : prog B :=
  match p with
  | Return a => k a
  | Do o h => Do o (fun x => bind (h x) k)
  end.

Definition call {X} (o : op X) : prog X := Do o Return.

Declare Scope prog_scope.
Delimit Scope prog_scope with prog.
Notation "x <- p ;; k" := (bind p (fun x => k))
  (at level 61, p at next level, right associativity) : prog_scope.
Notation "p ;; k" := (bind p (fun _ => k))
  (at level 61, right associativity) : prog_scope.

(** [func(c echo.Context) error { ... }] of line 48. *)
Definition metricsMiddlewareBody : prog (option error) :=
  (start <- call time_Now ;;
   err <- call call_next ;;
   match err with
   | Some e => call (c_Error e) ;; call errorCounter_Inc
   | None => Return tt
   end ;;
   duration <- call (time_Since start) ;;
   call (requestDuration_Observe duration) ;;
   Return err)%prog.

(** What was done, in the order it was done. *)
Inductive event :=
| ENow
| ENext
| EError (e : error)
| EInc
| ESince (start : Time)
| EObserve (d : Duration).

Definition event_of {X} (o : op X) : event :=
  match o with
  | time_Now => ENow
  | call_next => ENext
  | c_Error e => EError e
  | errorCounter_Inc => EInc
  | time_Since t => ESince t
  | requestDuration_Observe d => EObserve d
  end.

Definition perform (next : HandlerFunc) (c : Context) {X} (o : op X)
    : RState -> X * RState :=
  match o in op X return RState -> X * RState with
  | time_Now => fun s => (now s, s)
  | call_next => fun s => next c s
  | c_Error e => fun s => (tt, handleError c e s)
  | errorCounter_Inc => fun s =>
      (tt, setMetrics (requestDuration s) (Prometheus.Inc (errorCounter s)) s)
  | time_Since t => fun s => (now s - t, s)
  | requestDuration_Observe d => fun s =>
      (tt, setMetrics (Prometheus.Observe d (requestDuration s)) (errorCounter s) s)
  end.

Fixpoint exec (next : HandlerFunc) (c : Context) {A} (p : prog A) (s : RState)
    : A * RState * list event :=
  match p with
  | Return a => (a, s, [])
  | Do o k =>
      let '(x, s1) := perform next c o s in
      let '(a, s2, tr) := exec next c (k x) s1 in
      (a, s2, event_of o :: tr)
  end.

Definition metricsMiddleware : MiddlewareFunc :=
  fun next c s => fst (exec next c metricsMiddlewareBody s).

(** The operations of one run of the middleware. *)
Definition metricsTrace (next : HandlerFunc) (c : Context) (s : RState)
    : list event :=
  snd (exec next c metricsMiddlewareBody s).

Definition isNext (e : event) : bool :=
  match e with ENext => true | _ => false end.
Definition isInc (e : event) : bool :=
  match e with EInc => true | _ => false end.
Definition isObserve (e : event) : bool :=
  match e with EObserve _ => true | _ => false end.
Definition isError (e : event) : bool :=
  match e with EError _ => true | _ => false end.

Definition times (f : event -> bool) (tr : list event) : nat :=
  List.length (filter f tr).

(** ** The echo server object *)

Module Echo.

(** A route pattern: a literal path, or a prefix followed by the
    wildcard that [Static] registers. *)
Inductive pattern :=
| Exact (p : string)
| Wildcard (prefix : string).

Record Route := {
  rMethod : string;
  rPattern : pattern;
  rHandler : HandlerFunc
}.

Record t := {
  middleware : list MiddlewareFunc;
  routes : list Route;
  errorHandler : error -> Response -> Response
}.

(** [DefaultHTTPErrorHandler]: nothing once the response is committed,
    otherwise an error response, which commits it. The status and the JSON
    body that echo writes depend on the kind of the error, which its
    message does not carry: 500 and the message stand for them here, and
    nothing below relies on them. *)
Definition DefaultHTTPErrorHandler (err : error) (r : Response) : Response :=
  if Committed r then r
  else {| Committed := true; Status := 500; body := [err] |}.

Definition New : t :=
  {| middleware := []; routes := [];
     errorHandler := DefaultHTTPErrorHandler |}.

Definition Use (m : list MiddlewareFunc) (e : t) : t :=
  {| middleware := middleware e ++ m; routes := routes e;
     errorHandler := errorHandler e |}.

Definition Add (r : Route) (e : t) : t :=
  {| middleware := middleware e; routes := routes e ++ [r];
     errorHandler := errorHandler e |}.

Definition GET (path : string) (h : HandlerFunc) : t -> t :=
  Add {| rMethod := "GET"; rPattern := Exact path; rHandler := h |}.

Definition NotFoundHandler : HandlerFunc :=
  fun _ s => (Some "Not Found", s).

Definition MethodNotAllowedHandler : HandlerFunc :=
  fun _ s => (Some "Method Not Allowed", s).

(** The answer to an OPTIONS request for a path that has routes: 204 and
    no error. *)
Definition OptionsHandler : HandlerFunc :=
  fun _ s =>
    (None, setResponse {| Committed := true; Status := 204; body := [] |} s).

Definition exactMatch (m p : string) (r : Route) : bool :=
  String.eqb (rMethod r) m &&
  match rPattern r with
  | Exact q => String.eqb q p
  | Wildcard _ => false
  end.

Definition wildcardMatch (m p : string) (r : Route) : bool :=
  String.eqb (rMethod r) m &&
  match rPattern r with
  | Exact _ => false
  | Wildcard q => String.prefix q p
  end.

(** The last route of [rs] that [f] accepts. *)
Fixpoint lastMatch (f : Route -> bool) (rs : list Route) : option Route :=
  match rs with
  | [] => None
  | r :: rest =>
      match lastMatch f rest with
      | Some r' => Some r'
      | None => if f r then Some r else None
      end
  end.

(** The route answers the path, under whatever method. *)
Definition pathMatch (p : string) (r : Route) : bool :=
  match rPattern r with
  | Exact q => String.eqb q p
  | Wildcard q => String.prefix q p
  end.

(** The router: a literal route wins over a wildcard one, and a later
    registration of the same path replaces an earlier one. A path that has
    routes, but none for the method, is answered by the OPTIONS handler or
    by the method-not-allowed handler; a path without any route by the
    not-found handler. *)
Definition find (e : t) (m p : string) : HandlerFunc :=
  match lastMatch (exactMatch m p) (routes e) with
  | Some r => rHandler r
  | None =>
      match lastMatch (wildcardMatch m p) (routes e) with
      | Some r => rHandler r
      | None =>
          if existsb (pathMatch p) (routes e)
          then (if String.eqb m "OPTIONS" then OptionsHandler
                else MethodNotAllowedHandler)
          else NotFoundHandler
      end
  end.

(** [applyMiddleware]: the first middleware registered is the outermost. *)
Definition applyMiddleware (h : HandlerFunc) (ms : list MiddlewareFunc)
    : HandlerFunc :=
  fold_right (fun m acc => m acc) h ms.

(** [ServeHTTP]: a fresh context, the routed handler inside the whole
    middleware chain, and the error handler for an error that comes back. *)
Definition ServeHTTP (e : t) (m p : string) (s : RState) : RState :=
  let c := {| Method := m; Path := p; HTTPErrorHandler := errorHandler e |} in
  let h := applyMiddleware (find e m p) (middleware e) in
  match h c (setResponse emptyResponse s) with
  | (Some err, s1) => handleError c err s1
  | (None, s1) => s1
  end.

End Echo.

(** ** promhttp.Handler() and echo.WrapHandler *)

Module Promhttp.

Fixpoint insert (x : string) (l : list string) : list string :=
  match l with
  | [] => [x]
  | y :: rest => if String.leb x y then x :: l else y :: insert x rest
  end.

(** Metric families are gathered in the order of their names. *)
Definition sortNames (l : list string) : list string :=
  fold_right insert [] l.

Definition family (s : RState) (name : string) : list string :=
  if String.eqb name (Prometheus.hName (Prometheus.hopts (requestDuration s)))
  then Prometheus.writeHistogram
         (floatText s (Prometheus.hobserved (requestDuration s)))
         (requestDuration s)
  else if String.eqb name (Prometheus.cName (Prometheus.copts (errorCounter s)))
  then Prometheus.writeCounter (errorCounter s)
  else collected s name.

Definition Gather (s : RState) : list string :=
  List.concat (map (family s) (sortNames (registered s))).

(** The handler answers 200 with the gathered families as its body. *)
Definition Handler (s : RState) : RState :=
  setResponse {| Committed := true; Status := 200; body := Gather s |} s.

End Promhttp.

(** [echo.WrapHandler]: an [http.Handler] cannot fail. *)
Definition WrapHandler (h : RState -> RState) : HandlerFunc :=
  fun _ s => (None, h s).

(** ** Lines 66 to 105: main *)

(** [conf.StaticContents.Path] is all that [main] reads of the
    configuration. *)
Record Config := {
  StaticContentsPath : string
}.

(** How a call into another package ends: it returns, it panics, it calls
    [os.Exit], or the process is terminated by the default action of a
    signal while the call is running ([main] installs no signal handler). *)
Inductive behaviour (A : Type) : Type :=
| Returns (a : A)
| Panics
| Exits (code : Z)
| Signalled.

Arguments Returns {A} _.
Arguments Panics {A}.
Arguments Exits {A} _.
Arguments Signalled {A}.

(** What a package that is handed the server adds to it: routes,
    middlewares (with [Use]; a middleware installed with [Pre] is not
    modelled), and possibly another error handler. *)
Record Registration := {
  addRoutes : list Echo.Route;
  addMiddleware : list MiddlewareFunc;
  setErrorHandler : option (error -> Response -> Response)
}.

Definition register (r : Registration) (e : Echo.t) : Echo.t :=
  {| Echo.middleware := Echo.middleware e ++ addMiddleware r;
     Echo.routes := Echo.routes e ++ addRoutes r;
     Echo.errorHandler :=
       match setErrorHandler r with
       | Some h => h
       | None => Echo.errorHandler e
       end |}.

(** The environment of one run of the process. Lines 85 and 86 call the
    migration and the seeding as statements: what such a call returns, an
    error or nothing ([None]), is not bound by [main]. *)
Record World := {
  config_Load : behaviour (Config * string);
  logger_NewLogger : behaviour unit;
  repository_NewBookRepository : behaviour unit;
  container_NewContainer : behaviour unit;
  migration_CreateDatabase : behaviour (option error);
  migration_InitMasterData : behaviour (option error);
  router_Init : behaviour Registration;
  middleware_InitLoggerMiddleware : behaviour Registration;
  middleware_InitSessionMiddleware : behaviour Registration;
  files : string -> string -> HandlerFunc;
  e_Start : behaviour (option error);
  rep_Close : behaviour unit
}.

(** The statements of [main] that act on something outside it. *)
Inductive step :=
| Do_echo_New
| Do_Use_metricsMiddleware
| Do_GET (path : string)
| Do_config_Load
| Do_NewLogger
| Do_Infof (msg : string)
| Do_NewBookRepository
| Do_NewContainer
| Do_CreateDatabase
| Do_InitMasterData
| Do_router_Init
| Do_InitLoggerMiddleware
| Do_InitSessionMiddleware
| Do_Static (prefix root : string)
| Do_Start (address : string)
| Do_Errorf (msg : string)
| Do_rep_Close.

Definition step_eqb (a b : step) : bool :=
  match a, b with
  | Do_echo_New, Do_echo_New
  | Do_Use_metricsMiddleware, Do_Use_metricsMiddleware
  | Do_config_Load, Do_config_Load
  | Do_NewLogger, Do_NewLogger
  | Do_NewBookRepository, Do_NewBookRepository
  | Do_NewContainer, Do_NewContainer
  | Do_CreateDatabase, Do_CreateDatabase
  | Do_InitMasterData, Do_InitMasterData
  | Do_router_Init, Do_router_Init
  | Do_InitLoggerMiddleware, Do_InitLoggerMiddleware
  | Do_InitSessionMiddleware, Do_InitSessionMiddleware
  | Do_rep_Close, Do_rep_Close => true
  | Do_GET p, Do_GET q => String.eqb p q
  | Do_Infof p, Do_Infof q => String.eqb p q
  | Do_Errorf p, Do_Errorf q => String.eqb p q
  | Do_Start p, Do_Start q => String.eqb p q
  | Do_Static p r, Do_Static q t => String.eqb p q && String.eqb r t
  | _, _ => false
  end.

(** The process while [main] runs: what has been done (oldest first), the
    server [e], and the calls deferred so far (latest first). *)
Record Proc := {
  done : list step;
  server : Echo.t;
  deferred : list (step * behaviour unit)
}.

Inductive result (A : Type) : Type :=
| Value (a : A)
| Panicking
| Exiting (code : Z)
| Terminated.

Arguments Value {A} _.
Arguments Panicking {A}.
Arguments Exiting {A} _.
Arguments Terminated {A}.

Definition Go (A : Type) : Type := Proc -> result A * Proc.

Definition ret {A} (a : A) : Go A := fun p => (Value a, p).

Definition andThen {A B} (m : Go A) (k : A -> Go B) : Go B :=
  fun p =>
    match m p with
    | (Value a, p1) => k a p1
    | (Panicking, p1) => (Panicking, p1)
    | (Exiting n, p1) => (Exiting n, p1)
    | (Terminated, p1) => (Terminated, p1)
    end.

Declare Scope go_scope.
Delimit Scope go_scope with go.
Notation "x <- m ;; k" := (andThen m (fun x => k))
  (at level 61, m at next level, right associativity) : go_scope.
Notation "m ;; k" := (andThen m (fun _ => k))
  (at level 61, right associativity) : go_scope.

Definition record (st : step) (p : Proc) : Proc :=
  {| done := done p ++ [st]; server := server p; deferred := deferred p |}.

(** A statement that cannot fail: it is recorded and the server updated. *)
Definition local (st : step) (f : Echo.t -> Echo.t) : Go unit :=
  fun p => (Value tt,
            {| done := done p ++ [st]; server := f (server p);
               deferred := deferred p |}).

(** A call into another package: it is recorded, then ends as the world
    says. *)
Definition extern {A} (st : step) (b : behaviour A) : Go A :=
  fun p =>
    match b with
    | Returns a => (Value a, record st p)
    | Panics => (Panicking, record st p)
    | Exits n => (Exiting n, record st p)
    | Signalled => (Terminated, record st p)
    end.

(** [defer f()]: nothing runs now. *)
Definition defer (st : step) (b : behaviour unit) : Go unit :=
  fun p => (Value tt,
            {| done := done p; server := server p;
               deferred := (st, b) :: deferred p |}).

(** A package that is handed [e] and leaves its registrations on it. *)
Definition externInit (st : step) (b : behaviour Registration) : Go unit :=
  fun p =>
    match extern st b p with
    | (Value r, p1) =>
        (Value tt, {| done := done p1; server := register r (server p1);
                      deferred := deferred p1 |})
    | (Panicking, p1) => (Panicking, p1)
    | (Exiting n, p1) => (Exiting n, p1)
    | (Terminated, p1) => (Terminated, p1)
    end.

Definition Static (w : World) (prefix root : string) : Echo.t -> Echo.t :=
  Echo.Add {| Echo.rMethod := "GET"; Echo.rPattern := Echo.Wildcard prefix;
              Echo.rHandler := files w prefix root |}.

Definition main (w : World) : Go unit :=
  (local Do_echo_New (fun _ => Echo.New) ;;
   local Do_Use_metricsMiddleware (Echo.Use [metricsMiddleware]) ;;
   local (Do_GET "/prometheus")
     (Echo.GET "/prometheus" (WrapHandler Promhttp.Handler)) ;;
   ce <- extern Do_config_Load (config_Load w) ;;
   extern Do_NewLogger (logger_NewLogger w) ;;
   local (Do_Infof ("Loaded configuration: application." ++ snd ce ++ ".yml")%string) id ;;
   extern Do_NewBookRepository (repository_NewBookRepository w) ;;
   extern Do_NewContainer (container_NewContainer w) ;;
   extern Do_CreateDatabase (migration_CreateDatabase w) ;;
   extern Do_InitMasterData (migration_InitMasterData w) ;;
   externInit Do_router_Init (router_Init w) ;;
   externInit Do_InitLoggerMiddleware (middleware_InitLoggerMiddleware w) ;;
   externInit Do_InitSessionMiddleware (middleware_InitSessionMiddleware w) ;;
   (if String.eqb (StaticContentsPath (fst ce)) EmptyString then ret tt
    else
      local (Do_Static "/" (StaticContentsPath (fst ce)))
        (Static w "/" (StaticContentsPath (fst ce))) ;;
      local (Do_Infof ("Served static contents. Path: "
                       ++ StaticContentsPath (fst ce))%string) id) ;;
   err <- extern (Do_Start ":8000") (e_Start w) ;;
   match err with
   | Some e => local (Do_Errorf ("Error starting server: " ++ e)%string) id
   | None => ret tt
   end ;;
   defer Do_rep_Close (rep_Close w))%go.

(** How the process ends. The exit code is what the parent observes: of
    the integer passed to [os.Exit] the system keeps the low 8 bits. *)
Inductive ProcessStatus :=
| ExitCode (n : Z)
| KilledBySignal.

(** The deferred calls of [main] run latest first, when [main] returns or
    panics; a panic that reaches the top ends the process with code 2. *)
Fixpoint unwind (ds : list (step * behaviour unit)) (panicking : bool)
    (log : list step) : list step * ProcessStatus :=
  match ds with
  | [] => (log, ExitCode (if panicking then 2 else 0))
  | (st, b) :: rest =>
      match b with
      | Returns _ => unwind rest panicking (log ++ [st])
      | Panics => unwind rest true (log ++ [st])
      | Exits n => (log ++ [st], ExitCode (n mod 256))
      | Signalled => (log ++ [st], KilledBySignal)
      end
  end.

Record Outcome := {
  trace : list step;
  status : ProcessStatus;
  serving : Echo.t
}.

Definition initial : Proc :=
  {| done := []; server := Echo.New; deferred := [] |}.

(** One run of the process, from the first statement of [main] to its end. *)
Definition run (w : World) : Outcome :=
  match main w initial with
  | (Value _, p) =>
      {| trace := fst (unwind (deferred p) false (done p));
         status := snd (unwind (deferred p) false (done p));
         serving := server p |}
  | (Panicking, p) =>
      {| trace := fst (unwind (deferred p) true (done p));
         status := snd (unwind (deferred p) true (done p));
         serving := server p |}
  | (Exiting n, p) =>
      {| trace := done p; status := ExitCode (n mod 256);
         serving := server p |}
  | (Terminated, p) =>
      {| trace := done p; status := KilledBySignal; serving := server p |}
  end.

(** *** Observations on a trace *)

Definition occurrences (st : step) (tr : list step) : nat :=
  List.length (filter (step_eqb st) tr).

Definition reached (st : step) (tr : list step) : bool :=
  existsb (step_eqb st) tr.

(** Position of the first occurrence of [st]; the length of the trace when
    there is none. *)
Fixpoint position (st : step) (tr : list step) : nat :=
  match tr with
  | [] => O
  | x :: rest => if step_eqb st x then O else S (position st rest)
  end.

(** Both occur, and the first [a] comes before the first [b]. *)
Definition precedes (a b : step) (tr : list step) : bool :=
  reached a tr && reached b tr && Nat.ltb (position a tr) (position b tr).

(** *** Worlds used in the examples *)

Definition nothing : Registration :=
  {| addRoutes := []; addMiddleware := []; setErrorHandler := None |}.

Definition noFiles : string -> string -> HandlerFunc :=
  fun _ _ => Echo.NotFoundHandler.

(** Every start-up call returns; the static path and the way the serve call
    ends are left open. *)
Definition fairWeather (path : string) (serve : behaviour (option error))
    : World :=
  {| config_Load := Returns ({| StaticContentsPath := path |}, "develop");
     logger_NewLogger := Returns tt;
     repository_NewBookRepository := Returns tt;
     container_NewContainer := Returns tt;
     migration_CreateDatabase := Returns None;
     migration_InitMasterData := Returns None;
     router_Init := Returns nothing;
     middleware_InitLoggerMiddleware := Returns nothing;
     middleware_InitSessionMiddleware := Returns nothing;
     files := noFiles;
     e_Start := serve;
     rep_Close := Returns tt |}.

Definition withCreateDatabase (b : behaviour (option error)) (w : World)
    : World :=
  {| config_Load := config_Load w;
     logger_NewLogger := logger_NewLogger w;
     repository_NewBookRepository := repository_NewBookRepository w;
     container_NewContainer := container_NewContainer w;
     migration_CreateDatabase := b;
     migration_InitMasterData := migration_InitMasterData w;
     router_Init := router_Init w;
     middleware_InitLoggerMiddleware := middleware_InitLoggerMiddleware w;
     middleware_InitSessionMiddleware := middleware_InitSessionMiddleware w;
     files := files w;
     e_Start := e_Start w;
     rep_Close := rep_Close w |}.


Definition serverClosed : error := "http: Server closed".
Definition addressInUse : error :=
  "listen tcp :8000: bind: address already in use".

(** *** The start-up stages that can report a failure

    A stage reports a failure by not returning (a panic, [os.Exit], a
    signal) or, for the two calls whose result [main] does not bind, by
    returning an error. *)

Inductive stage :=
| ConfigLoading
| RepositoryOpening
| SchemaMigration
| DataSeeding.

Definition fails {A} (b : behaviour A) : bool :=
  match b with
  | Returns _ => false
  | _ => true
  end.

(** The call of the stage does not return. *)
Definition aborts (w : World) (st : stage) : bool :=
  match st with
  | ConfigLoading => fails (config_Load w)
  | RepositoryOpening => fails (repository_NewBookRepository w)
  | SchemaMigration => fails (migration_CreateDatabase w)
  | DataSeeding => fails (migration_InitMasterData w)
  end.

Definition erroneous (b : behaviour (option error)) : bool :=
  match b with
  | Returns (Some _) => true
  | _ => false
  end.

(** The call of the stage returns an error. *)
Definition returnsError (w : World) (st : stage) : bool :=
  match st with
  | SchemaMigration => erroneous (migration_CreateDatabase w)
  | DataSeeding => erroneous (migration_InitMasterData w)
  | _ => false
  end.

Definition stageFails (w : World) (st : stage) : bool :=
  aborts w st || returnsError w st.








(** *** The calls of [main], in order, with their results forgotten *)

Definition forget {A} (b : behaviour A) : behaviour unit :=
  match b with
  | Returns _ => Returns tt
  | Panics => Panics
  | Exits n => Exits n
  | Signalled => Signalled
  end.

Definition callsOf (w : World) : list (behaviour unit) :=
  [ forget (config_Load w); forget (logger_NewLogger w);
    forget (repository_NewBookRepository w);
    forget (container_NewContainer w);
    forget (migration_CreateDatabase w);
    forget (migration_InitMasterData w);
    forget (router_Init w);
    forget (middleware_InitLoggerMiddleware w);
    forget (middleware_InitSessionMiddleware w);
    forget (e_Start w) ].

(** The first call of the list that does not return, if any. *)
Fixpoint firstFailure (bs : list (behaviour unit)) : option (behaviour unit) :=
  match bs with
  | [] => None
  | Returns _ :: rest => firstFailure rest
  | b :: _ => Some b
  end.

(** How the process ends when a call, made with nothing deferred or as the
    only deferred call of a returning [main], ends as [b]. *)
Definition statusOf (b : behaviour unit) : ProcessStatus :=
  match b with
  | Returns _ => ExitCode 0
  | Panics => ExitCode 2
  | Exits n => ExitCode (n mod 256)
  | Signalled => KilledBySignal
  end.

(** *** The start-up order as the specification words it

    Configuration, logging, repository, context, migration, seeding,
    routes, then the middlewares with the instrumentation installed there,
    ahead of the other two, then serving. *)
Definition specStartupOrder (tr : list step) : bool :=
  precedes Do_config_Load Do_NewLogger tr &&
  precedes Do_NewLogger Do_NewBookRepository tr &&
  precedes Do_NewBookRepository Do_NewContainer tr &&
  precedes Do_NewContainer Do_CreateDatabase tr &&
  precedes Do_CreateDatabase Do_InitMasterData tr &&
  precedes Do_InitMasterData Do_router_Init tr &&
  precedes Do_router_Init Do_Use_metricsMiddleware tr &&
  precedes Do_Use_metricsMiddleware Do_InitLoggerMiddleware tr &&
  precedes Do_InitLoggerMiddleware Do_InitSessionMiddleware tr &&
  precedes Do_InitSessionMiddleware (Do_Start ":8000") tr.

(** The steps of a run in which every call returns. *)
Definition stepsOfRun (conf : Config) (env : string) (err : option error)
    : list step :=
  [ Do_echo_New; Do_Use_metricsMiddleware; Do_GET "/prometheus";
    Do_config_Load; Do_NewLogger;
    Do_Infof ("Loaded configuration: application." ++ env ++ ".yml")%string;
    Do_NewBookRepository; Do_NewContainer; Do_CreateDatabase;
    Do_InitMasterData; Do_router_Init; Do_InitLoggerMiddleware;
    Do_InitSessionMiddleware ]
  ++ (if String.eqb (StaticContentsPath conf) EmptyString then []
      else [ Do_Static "/" (StaticContentsPath conf);
             Do_Infof ("Served static contents. Path: "
                       ++ StaticContentsPath conf)%string ])
  ++ [ Do_Start ":8000" ]
  ++ match err with
     | Some e => [ Do_Errorf ("Error starting server: " ++ e)%string ]
     | None => []
     end
  ++ [ Do_rep_Close ].

(** *** Handlers and middlewares of other packages

    [requestDuration] is a variable of package [main] that is not exported:
    code of another package cannot observe into it. *)

Definition keepsHistogram (h : HandlerFunc) : Prop :=
  forall c s, requestDuration (snd (h c s)) = requestDuration s.

Definition foreignMiddleware (m : MiddlewareFunc) : Prop :=
  forall next, keepsHistogram next -> keepsHistogram (m next).

(** The server once the start-up calls have returned with configuration
    [conf] and registrations [r1], [r2] and [r3]. *)
Definition assembled (w : World) (conf : Config) (r1 r2 r3 : Registration)
    : Echo.t :=
  (if String.eqb (StaticContentsPath conf) EmptyString then id
   else Static w "/" (StaticContentsPath conf))
    (register r3 (register r2 (register r1
       (Echo.GET "/prometheus" (WrapHandler Promhttp.Handler)
          (Echo.Use [metricsMiddleware] Echo.New))))).

(** A middleware that only passes the request on. *)
Definition passThrough : MiddlewareFunc := fun next => next.

(** *** The exposition as the specification describes it

    A histogram [http_request_duration_seconds] with upper bounds in
    seconds and a counter [http_errors_total], one sample per line. *)

Definition secondsLabels : list string :=
  [ "0.005"; "0.01"; "0.025"; "0.05"; "0.1"; "0.25"; "0.5"; "1"; "2.5";
    "5"; "10" ].

Definition specBucketLine (lc : string * N) : string :=
  ("http_request_duration_seconds_bucket{le=" ++ Prometheus.dquote
   ++ fst lc ++ Prometheus.dquote ++ "} " ++ Prometheus.fmtN (snd lc))%string.

Definition specCounterLines (errors : N) : list string :=
  [ "# HELP http_errors_total Total number of HTTP errors";
    "# TYPE http_errors_total counter";
    ("http_errors_total " ++ Prometheus.fmtN errors)%string ].

(** The lines of the histogram but the one of its sum. *)
Definition specHistogramHead (cum : list N) (count : N) : list string :=
  [ "# HELP http_request_duration_seconds Duration of HTTP requests in seconds";
    "# TYPE http_request_duration_seconds histogram" ]
  ++ map specBucketLine (combine secondsLabels cum)
  ++ [ specBucketLine ("+Inf", count) ].

Definition specHistogramLines (cum : list N) (sumText : string) (count : N)
    : list string :=
  specHistogramHead cum count
  ++ [ ("http_request_duration_seconds_sum " ++ sumText)%string;
       ("http_request_duration_seconds_count " ++ Prometheus.fmtN count)%string ].


Definition newline : ascii := ascii_of_N 10.

Fixpoint hasNewline (l : string) : bool :=
  match l with
  | EmptyString => false
  | String a rest => Ascii.eqb a newline || hasNewline rest
  end.


(** A runtime for the examples: three families of other packages, each
    exposed as one gauge, and a sum written as the number of its
    observations (floating point is not computed). *)
Definition goRuntime : Runtime :=
  {| families := [ "go_goroutines"; "process_open_fds";
                   "promhttp_metric_handler_requests_in_flight" ];
     expose := fun name =>
       [ ("# TYPE " ++ name ++ " gauge")%string; (name ++ " 1")%string ];
     formatSum := fun obs => Prometheus.fmtN (N.of_nat (List.length obs)) |}.

(** *** A small service used in the examples *)

(** A handler that takes [d] nanoseconds and returns [r]. *)
Definition taking (d : Duration) (r : option error) : HandlerFunc :=
  fun _ s =>
    (r, {| now := now s + d; requestDuration := requestDuration s;
           errorCounter := errorCounter s; registered := registered s;
           collected := collected s; floatText := floatText s;
           response := response s; errorHandled := errorHandled s |}).

Definition bookRoutes : Registration :=
  {| addRoutes :=
       [ {| Echo.rMethod := "GET"; Echo.rPattern := Echo.Exact "/api/books";
            Echo.rHandler := taking 200000000 None |};
         {| Echo.rMethod := "GET"; Echo.rPattern := Echo.Exact "/api/health";
            Echo.rHandler := taking 50000000 None |};
         {| Echo.rMethod := "GET"; Echo.rPattern := Echo.Exact "/api/fail";
            Echo.rHandler := taking 10000000 (Some "boom") |} ];
     addMiddleware := [];
     setErrorHandler := None |}.

Definition loggingOnly : Registration :=
  {| addRoutes := []; addMiddleware := [passThrough];
     setErrorHandler := None |}.

(** Environment [test], no static content, every call returns, and the
    serve call ends with the server closed. *)
Definition bookService : World :=
  {| config_Load := Returns ({| StaticContentsPath := EmptyString |}, "test");
     logger_NewLogger := Returns tt;
     repository_NewBookRepository := Returns tt;
     container_NewContainer := Returns tt;
     migration_CreateDatabase := Returns None;
     migration_InitMasterData := Returns None;
     router_Init := Returns bookRoutes;
     middleware_InitLoggerMiddleware := Returns loggingOnly;
     middleware_InitSessionMiddleware := Returns loggingOnly;
     files := noFiles;
     e_Start := Returns (Some serverClosed);
     rep_Close := Returns tt |}.

(** Requests served one after the other. *)
Definition serveAll (srv : Echo.t) (paths : list string) (s : RState) : RState :=
  fold_left (fun acc p => Echo.ServeHTTP srv "GET" p acc) paths s.

(** *** The exit code as the specification words it

    Exit code 0 exactly when the shutdown is graceful: the start-up calls
    have returned and the serve call ends with the server closed. *)

Definition gracefulShutdown (w : World) : Prop :=
  firstFailure (firstn 9 (callsOf w)) = None /\
  e_Start w = Returns (Some serverClosed).

Definition specExitCode (w : World) : Prop :=
  status (run w) = ExitCode 0 <-> gracefulShutdown w.

(** *** Further observations on runs and on served requests *)

(** What [main] reads of a world: the configuration and environment that
    [config.Load] returns and the error that the serve call returns (the
    empty configuration, the empty name and no error when there is none). *)
Definition confOf (w : World) : Config :=
  match config_Load w with
  | Returns ce => fst ce
  | _ => {| StaticContentsPath := EmptyString |}
  end.

Definition envOf (w : World) : string :=
  match config_Load w with
  | Returns ce => snd ce
  | _ => EmptyString
  end.

Definition errOf (w : World) : option error :=
  match e_Start w with
  | Returns err => err
  | _ => None
  end.

Definition isErrorf (s : step) : bool :=
  match s with Do_Errorf _ => true | _ => false end.

Definition isStatic (s : step) : bool :=
  match s with Do_Static _ _ => true | _ => false end.

(** No route of [rs] answers the path [p], under any method. *)
Definition unrouted (p : string) (rs : list Echo.Route) : bool :=
  forallb (fun r => negb (Echo.pathMatch p r)) rs.

(** [errorCounter] is not exported either. *)
Definition keepsCounter (h : HandlerFunc) : Prop :=
  forall c s, errorCounter (snd (h c s)) = errorCounter s.

Definition foreignToCounter (m : MiddlewareFunc) : Prop :=
  forall next, keepsCounter next -> keepsCounter (m next).

(** A handler that fails with [e] whatever the request and the state. *)
Definition alwaysFails (e : error) (h : HandlerFunc) : Prop :=
  forall c s, fst (h c s) = Some e.

(** A middleware that lets the failure of what it wraps through. *)
Definition letsFailuresThrough (m : MiddlewareFunc) : Prop :=
  forall next e, alwaysFails e next -> alwaysFails e (m next).



(** A world like [bookService] that mounts static content from [root]. *)
Definition bookServiceWithStatic (root : string) : World :=
  {| config_Load := Returns ({| StaticContentsPath := root |}, "test");
     logger_NewLogger := Returns tt;
     repository_NewBookRepository := Returns tt;
     container_NewContainer := Returns tt;
     migration_CreateDatabase := Returns None;
     migration_InitMasterData := Returns None;
     router_Init := Returns bookRoutes;
     middleware_InitLoggerMiddleware := Returns loggingOnly;
     middleware_InitSessionMiddleware := Returns loggingOnly;
     files := noFiles;
     e_Start := Returns (Some serverClosed);
     rep_Close := Returns tt |}.

(** * Properties *)

Example run_server_closed :
  trace (run (fairWeather EmptyString (Returns (Some serverClosed)))) =
  [ Do_echo_New; Do_Use_metricsMiddleware; Do_GET "/prometheus";
    Do_config_Load; Do_NewLogger;
    Do_Infof "Loaded configuration: application.develop.yml";
    Do_NewBookRepository; Do_NewContainer; Do_CreateDatabase;
    Do_InitMasterData; Do_router_Init; Do_InitLoggerMiddleware;
    Do_InitSessionMiddleware; Do_Start ":8000";
    Do_Errorf "Error starting server: http: Server closed"; Do_rep_Close ].
Proof. reflexivity. Qed.

Example run_static_signalled :
  trace (run (fairWeather "public" Signalled)) =
  [ Do_echo_New; Do_Use_metricsMiddleware; Do_GET "/prometheus";
    Do_config_Load; Do_NewLogger;
    Do_Infof "Loaded configuration: application.develop.yml";
    Do_NewBookRepository; Do_NewContainer; Do_CreateDatabase;
    Do_InitMasterData; Do_router_Init; Do_InitLoggerMiddleware;
    Do_InitSessionMiddleware; Do_Static "/" "public";
    Do_Infof "Served static contents. Path: public"; Do_Start ":8000" ]
  /\ status (run (fairWeather "public" Signalled)) = KilledBySignal.
Proof. split; reflexivity. Qed.

Example find_by_method :
  let srv := serving (run bookService) in
  Echo.find srv "POST" "/prometheus" = Echo.MethodNotAllowedHandler /\
  Echo.find srv "OPTIONS" "/api/books" = Echo.OptionsHandler /\
  Echo.find srv "POST" "/nowhere" = Echo.NotFoundHandler /\
  Echo.find (serving (run (bookServiceWithStatic "public"))) "POST" "/x" =
    Echo.MethodNotAllowedHandler.
Proof. cbv zeta. repeat split; reflexivity. Qed.

Example exit_code_low_bits :
  status (run (withCreateDatabase (Exits 258)
                 (fairWeather EmptyString (Returns None)))) = ExitCode 2 /\
  status (run (withCreateDatabase (Exits (-1))
                 (fairWeather EmptyString (Returns None)))) = ExitCode 255.
Proof. split; reflexivity. Qed.

Example fmtBound_bounds :
  map Prometheus.fmtBound Prometheus.DefBuckets =
  [ "0.005"; "0.01"; "0.025"; "0.05"; "0.1"; "0.25"; "0.5"; "1"; "2.5";
    "5"; "10" ].
Proof. reflexivity. Qed.

(** ** The lifecycle of main *)

(** Case analysis on how the calls of a world end, one call at a time, in
    the order [main] makes them: a call that does not return ends the run,
    so only the returning case goes on to the next call. *)
Ltac by_calls w :=
  destruct w as [cl nl nr nc cd im ri ml ms fl es rc];
  unfold run, main, andThen, extern, externInit, local, defer, ret; cbn;
  destruct cl as [[cnf nm]| | |]; cbn; try easy;
  destruct nl as [[]| | |]; cbn; try easy;
  destruct nr as [[]| | |]; cbn; try easy;
  destruct nc as [[]| | |]; cbn; try easy;
  destruct cd as [rd| | |]; cbn; try easy;
  destruct im as [rm| | |]; cbn; try easy;
  destruct ri as [g1| | |]; cbn; try easy;
  destruct ml as [g2| | |]; cbn; try easy;
  destruct ms as [g3| | |]; cbn; try easy.

(** The same case analysis, for goals that the aborted runs do not close
    by computation alone: [tac] closes each of them. *)
Ltac by_calls_with w tac :=
  destruct w as [cl nl nr nc cd im ri ml ms fl es rc];
  unfold run, main, andThen, extern, externInit, local, defer, ret; cbn;
  destruct cl as [[cnf nm]| | |]; cbn; [ | solve [tac] ..];
  destruct nl as [[]| | |]; cbn; [ | solve [tac] ..];
  destruct nr as [[]| | |]; cbn; [ | solve [tac] ..];
  destruct nc as [[]| | |]; cbn; [ | solve [tac] ..];
  destruct cd as [rd| | |]; cbn; [ | solve [tac] ..];
  destruct im as [rm| | |]; cbn; [ | solve [tac] ..];
  destruct ri as [g1| | |]; cbn; [ | solve [tac] ..];
  destruct ml as [g2| | |]; cbn; [ | solve [tac] ..];
  destruct ms as [g3| | |]; cbn; [ | solve [tac] ..].

(** X1. [rep.Close] runs once, as the last step, when every call up to and
    including the serve call returns, and not at all otherwise. *)
Lemma close_runs_iff_serve_returns (w : World) :
  match firstFailure (callsOf w) with
  | None =>
      occurrences Do_rep_Close (trace (run w)) = 1%nat /\
      last (trace (run w)) Do_echo_New = Do_rep_Close
  | Some _ => occurrences Do_rep_Close (trace (run w)) = 0%nat
  end.
Proof.
  by_calls w.
  all: destruct es as [[e|]| | |]; cbn.
  all: destruct (String.eqb (StaticContentsPath cnf) EmptyString);
    try reflexivity; destruct rc as [[]| | |]; split; reflexivity.
Qed.

(** C1. [rep.Close] is deferred on line 104, after the serve call has
    returned, so it runs on one exit path only. When schema migration
    panics with the repository already open, and when a signal ends the
    process during the serve call, [rep.Close] runs zero times; when the
    serve call returns an error it runs once. *)
Theorem close_skipped_on_abort_and_signal :
  let served := Returns (Some serverClosed) in
  let aborted := withCreateDatabase Panics (fairWeather EmptyString served) in
  let signalled := fairWeather EmptyString Signalled in
  reached Do_NewBookRepository (trace (run aborted)) = true /\
  occurrences Do_rep_Close (trace (run aborted)) = 0%nat /\
  reached (Do_Start ":8000") (trace (run signalled)) = true /\
  occurrences Do_rep_Close (trace (run signalled)) = 0%nat /\
  occurrences Do_rep_Close
    (trace (run (fairWeather EmptyString (Returns (Some addressInUse))))) = 1%nat.
Proof. cbv zeta. repeat split; reflexivity. Qed.




(** C5, as stated, fails: when the serve call returns the error of a
    failed bind, which is not a graceful shutdown, [main] logs it and
    returns, and the exit code is 0. A start-up failure does not always
    give a non-zero exit code either: a migration error that [main]
    discards is followed by a run that ends with code 0, and so is a
    start-up call that ends the process with [os.Exit(256)]. *)
Lemma exit_zero_on_serve_error :
  let w := fairWeather EmptyString (Returns (Some addressInUse)) in
  let reporting :=
    withCreateDatabase (Returns (Some "migration failed"))
      (fairWeather EmptyString (Returns (Some serverClosed))) in
  let exiting :=
    withCreateDatabase (Exits 256)
      (fairWeather EmptyString (Returns (Some serverClosed))) in
  reached (Do_Errorf "Error starting server: listen tcp :8000: bind: address already in use")
    (trace (run w)) = true /\
  status (run w) = ExitCode 0 /\
  ~ gracefulShutdown w /\
  ~ specExitCode w /\
  stageFails reporting SchemaMigration = true /\
  status (run reporting) = ExitCode 0 /\
  stageFails exiting SchemaMigration = true /\
  status (run exiting) = ExitCode 0.
Proof.
  cbv zeta. repeat split.
  - intros [_ H]. discriminate H.
  - intros [H _]. destruct (H eq_refl) as [_ H']. discriminate H'.
Qed.

Lemma firstFailure_fails (bs : list (behaviour unit)) (b : behaviour unit) :
  firstFailure bs = Some b -> fails b = true.
Proof.
  induction bs as [|x bs IH]; cbn; [discriminate |].
  destruct x; auto; intros H; injection H as <-; reflexivity.
Qed.

(** C5, amended. The way the process ends is decided by the first call of
    [main] that does not return, among the start-up calls, the serve call
    and then the deferred [rep.Close]: exit code 2 when it panics, the low
    8 bits of [n] when it calls [os.Exit(n)], death by signal when it is
    signalled. When every one of them returns, whatever error the serve
    call, the migration or the seeding returned, the exit code is 0. So the
    exit code is 0 exactly when all these calls return, or the first that
    does not calls [os.Exit] with a multiple of 256. *)
Theorem exit_status (w : World) :
  status (run w) =
    match firstFailure (callsOf w ++ [rep_Close w]) with
    | Some b => statusOf b
    | None => ExitCode 0
    end /\
  (status (run w) = ExitCode 0 <->
   firstFailure (callsOf w ++ [rep_Close w]) = None \/
   exists n, firstFailure (callsOf w ++ [rep_Close w]) = Some (Exits n) /\
             n mod 256 = 0).
Proof.
  assert (E : status (run w) =
              match firstFailure (callsOf w ++ [rep_Close w]) with
              | Some b => statusOf b
              | None => ExitCode 0
              end).
  { by_calls w.
    all: destruct es as [[e|]| | |]; cbn; try reflexivity.
    all: destruct (String.eqb (StaticContentsPath cnf) EmptyString);
      destruct rc as [[]| | |]; reflexivity. }
  split; [exact E |]. rewrite E.
  destruct (firstFailure (callsOf w ++ [rep_Close w])) as [b|] eqn:F.
  - apply firstFailure_fails in F as Hb.
    destruct b as [u| |n|]; cbn in *; try discriminate.
    + split; [discriminate | intros [H | (n & H & _)]; discriminate].
    + split.
      * intros H. right. exists n. split; [reflexivity |]. congruence.
      * intros [H | (k & H & Hk)]; [discriminate |].
        injection H as ->. now rewrite Hk.
    + split; [discriminate | intros [H | (n & H & _)]; discriminate].
  - split; [now left | reflexivity].
Qed.

(** C6, as stated, fails: the instrumentation is not installed during
    middleware registration, after the routes; in a run where every call
    returns it is installed before the configuration is loaded. *)
Lemma instrumentation_installed_first :
  specStartupOrder
    (trace (run (fairWeather "public" (Returns (Some serverClosed))))) = false /\
  precedes Do_router_Init Do_Use_metricsMiddleware
    (trace (run (fairWeather "public" (Returns (Some serverClosed))))) = false /\
  precedes Do_Use_metricsMiddleware Do_config_Load
    (trace (run (fairWeather "public" (Returns (Some serverClosed))))) = true.
Proof. repeat split; reflexivity. Qed.

(** C6, amended. When every call returns, the run is exactly: create the
    server, install the instrumentation, register the metrics route, then
    load configuration, initialize logging, open the repository, assemble
    the context, migrate, seed, register routes, register the logging and
    session middlewares, mount static content if a path is configured,
    serve, and close; each step once. The instrumentation is the first
    middleware of the server, so it wraps every other one around any
    handler. *)
Theorem startup_order (w : World) (conf : Config) (env : string)
    (rd rm : option error) (r1 r2 r3 : Registration) (err : option error) :
  config_Load w = Returns (conf, env) ->
  logger_NewLogger w = Returns tt ->
  repository_NewBookRepository w = Returns tt ->
  container_NewContainer w = Returns tt ->
  migration_CreateDatabase w = Returns rd ->
  migration_InitMasterData w = Returns rm ->
  router_Init w = Returns r1 ->
  middleware_InitLoggerMiddleware w = Returns r2 ->
  middleware_InitSessionMiddleware w = Returns r3 ->
  e_Start w = Returns err ->
  rep_Close w = Returns tt ->
  trace (run w) = stepsOfRun conf env err /\
  Echo.middleware (serving (run w)) =
    metricsMiddleware :: addMiddleware r1 ++ addMiddleware r2 ++ addMiddleware r3 /\
  forall h : HandlerFunc,
    Echo.applyMiddleware h (Echo.middleware (serving (run w))) =
    metricsMiddleware
      (Echo.applyMiddleware h
         (addMiddleware r1 ++ addMiddleware r2 ++ addMiddleware r3)).
Proof.
  intros Hc Hl Hr Hn Hd Hm Hi Hg Hs He Hx.
  destruct w as [cl nl nr nc cd im ri ml ms fl es rc]; cbn in *.
  subst cl nl nr nc cd im ri ml ms es rc.
  unfold run, main, andThen, extern, externInit, local, defer, ret, stepsOfRun.
  cbn.
  destruct (String.eqb (StaticContentsPath conf) EmptyString);
    destruct err as [e|]; cbn; rewrite <- !app_assoc; repeat split.
Qed.

Lemma startup_order_witness :
  trace (run (fairWeather "public" (Returns (Some serverClosed)))) =
  stepsOfRun {| StaticContentsPath := "public" |} "develop" (Some serverClosed).
Proof.
  apply (@startup_order (fairWeather "public" (Returns (Some serverClosed)))
           {| StaticContentsPath := "public" |} "develop" None None
           nothing nothing nothing (Some serverClosed));
    reflexivity.
Defined.

(** ** The instrumentation middleware *)

(** One run of the middleware, in terms of the run of the handler it
    wraps: the handler's result is returned; on an error the error handler
    and the counter come first; the duration observed is the time the
    handler took. *)
Lemma metricsMiddleware_run (next : HandlerFunc) (c : Context) (s : RState) :
  exec next c metricsMiddlewareBody s =
  let r := fst (next c s) in
  let s1 := snd (next c s) in
  let d := now s1 - now s in
  match r with
  | Some e =>
      (r,
       setMetrics (Prometheus.Observe d (requestDuration s1))
         (Prometheus.Inc (errorCounter s1)) (handleError c e s1),
       [ENow; ENext; EError e; EInc; ESince (now s); EObserve d])
  | None =>
      (r,
       setMetrics (Prometheus.Observe d (requestDuration s1))
         (errorCounter s1) s1,
       [ENow; ENext; ESince (now s); EObserve d])
  end.
Proof.
  unfold metricsMiddlewareBody; cbn.
  destruct (next c s) as [[e|] s1]; reflexivity.
Qed.

(** C3. In every run of the middleware the error counter is incremented
    once when the wrapped handler returns an error and not at all when it
    returns nil, so its value grows by exactly 1 or stays; and the elapsed
    time is observed into the histogram exactly once in both cases, so the
    histogram's count grows by exactly 1. *)
Theorem counts_errors_and_latency (next : HandlerFunc) (c : Context) (s : RState) :
  let r := fst (next c s) in
  let s1 := snd (next c s) in
  let s2 := snd (metricsMiddleware next c s) in
  let tr := metricsTrace next c s in
  times isInc tr = match r with Some _ => 1%nat | None => 0%nat end /\
  Prometheus.cvalue (errorCounter s2) =
    (Prometheus.cvalue (errorCounter s1)
     + match r with Some _ => 1 | None => 0 end)%N /\
  times isObserve tr = 1%nat /\
  In (EObserve (now s1 - now s)) tr /\
  requestDuration s2 =
    Prometheus.Observe (now s1 - now s) (requestDuration s1) /\
  Prometheus.hcount (requestDuration s2) =
    (Prometheus.hcount (requestDuration s1) + 1)%N.
Proof.
  unfold metricsMiddleware, metricsTrace.
  rewrite metricsMiddleware_run.
  destruct (next c s) as [[e|] s1]; cbn.
  - repeat split; try lia. right. right. right. right. right. now left.
  - repeat split; try lia. right. right. right. now left.
Qed.

(** C4. The middleware calls the wrapped handler exactly once and returns
    exactly what that call returned, an error or nil. *)
Theorem middleware_transparent (next : HandlerFunc) (c : Context) (s : RState) :
  times isNext (metricsTrace next c s) = 1%nat /\
  fst (metricsMiddleware next c s) = fst (next c s).
Proof.
  unfold metricsMiddleware, metricsTrace.
  rewrite metricsMiddleware_run.
  destruct (next c s) as [[e|] s1]; cbn; split; reflexivity.
Qed.

(** C9. When the wrapped handler returns an error, the middleware hands it
    to the server's error handler through [c.Error] and returns the same
    error; the server, which hands every returned error to its error
    handler, then handles it a second time: one failing request adds the
    error twice to the errors handled. *)
Theorem error_handled_twice (srv : Echo.t) (rest : list MiddlewareFunc)
    (m p : string) (s s1 : RState) (e : error) :
  let c := {| Method := m; Path := p;
              HTTPErrorHandler := Echo.errorHandler srv |} in
  let next := Echo.applyMiddleware (Echo.find srv m p) rest in
  Echo.middleware srv = metricsMiddleware :: rest ->
  next c (setResponse emptyResponse s) = (Some e, s1) ->
  times isError (metricsTrace next c (setResponse emptyResponse s)) = 1%nat /\
  In (EError e) (metricsTrace next c (setResponse emptyResponse s)) /\
  fst (metricsMiddleware next c (setResponse emptyResponse s)) = Some e /\
  errorHandled (Echo.ServeHTTP srv m p s) = e :: e :: errorHandled s1.
Proof.
  intros c next Hmw Hnext.
  unfold Echo.ServeHTTP. rewrite Hmw. cbn [Echo.applyMiddleware fold_right].
  fold (Echo.applyMiddleware (Echo.find srv m p) rest). fold next. fold c.
  unfold metricsMiddleware, metricsTrace.
  rewrite metricsMiddleware_run, Hnext. cbn.
  repeat split. right. right. now left.
Qed.

Lemma error_handled_twice_witness :
  errorHandled
    (Echo.ServeHTTP (serving (run (fairWeather EmptyString (Returns None))))
       "GET" "/missing" (bootState goRuntime 0)) = ["Not Found"; "Not Found"].
Proof.
  apply (@error_handled_twice
           (serving (run (fairWeather EmptyString (Returns None)))) []
           "GET" "/missing" (bootState goRuntime 0)
           (setResponse emptyResponse (bootState goRuntime 0)) "Not Found");
    reflexivity.
Defined.

(** ** The metrics endpoint *)

Lemma lastMatch_app (f : Echo.Route -> bool) (l1 l2 : list Echo.Route) :
  Echo.lastMatch f (l1 ++ l2) =
  match Echo.lastMatch f l2 with
  | Some r => Some r
  | None => Echo.lastMatch f l1
  end.
Proof.
  induction l1 as [|r l1 IH]; cbn.
  - now destruct (Echo.lastMatch f l2).
  - rewrite IH. now destruct (Echo.lastMatch f l2).
Qed.

Lemma lastMatch_none (f : Echo.Route -> bool) (l : list Echo.Route) :
  forallb (fun r => negb (f r)) l = true -> Echo.lastMatch f l = None.
Proof.
  induction l as [|r l IH]; cbn; [reflexivity |].
  intros H. apply andb_prop in H as [Hr Hl].
  rewrite (IH Hl). now destruct (f r).
Qed.

(** The server that serves, when the start-up calls have returned. *)
Lemma serving_assembled (w : World) (conf : Config) (env : string)
    (r1 r2 r3 : Registration) :
  config_Load w = Returns (conf, env) ->
  firstFailure (firstn 9 (callsOf w)) = None ->
  router_Init w = Returns r1 ->
  middleware_InitLoggerMiddleware w = Returns r2 ->
  middleware_InitSessionMiddleware w = Returns r3 ->
  serving (run w) = assembled w conf r1 r2 r3 /\
  precedes Do_Use_metricsMiddleware (Do_GET "/prometheus") (trace (run w)) = true.
Proof.
  intros Hc Hall H1 H2 H3.
  revert Hc Hall H1 H2 H3. by_calls w; intros Hc Hall H1 H2 H3.
  all: try discriminate.
  injection Hc as -> ->. injection H1 as ->. injection H2 as ->.
  injection H3 as ->.
  unfold assembled.
  destruct (String.eqb (StaticContentsPath conf) EmptyString);
    destruct es as [[e|]| | |]; cbn; try (split; reflexivity);
    destruct rc as [[]| | |]; split; reflexivity.
Qed.

Lemma assembled_middleware (w : World) (conf : Config) (r1 r2 r3 : Registration) :
  Echo.middleware (assembled w conf r1 r2 r3) =
  metricsMiddleware :: addMiddleware r1 ++ addMiddleware r2 ++ addMiddleware r3.
Proof.
  unfold assembled.
  destruct (String.eqb (StaticContentsPath conf) EmptyString); cbn;
    now rewrite <- !app_assoc.
Qed.

Lemma assembled_find_prometheus (w : World) (conf : Config)
    (r1 r2 r3 : Registration) :
  forallb (fun r => negb (Echo.exactMatch "GET" "/prometheus" r))
    (addRoutes r1 ++ addRoutes r2 ++ addRoutes r3) = true ->
  Echo.find (assembled w conf r1 r2 r3) "GET" "/prometheus" =
  WrapHandler Promhttp.Handler.
Proof.
  intros H. rewrite !forallb_app in H.
  apply andb_prop in H as [H1 H]. apply andb_prop in H as [H2 H3].
  apply lastMatch_none in H1, H2, H3.
  unfold Echo.find, assembled.
  destruct (String.eqb (StaticContentsPath conf) EmptyString); cbn;
    rewrite !lastMatch_app, ?H1, ?H2, ?H3; cbn;
    rewrite ?H1, ?H2, ?H3; reflexivity.
Qed.

Lemma prometheus_keepsHistogram : keepsHistogram (WrapHandler Promhttp.Handler).
Proof. intros c s. reflexivity. Qed.

Lemma chain_keepsHistogram (h : HandlerFunc) (ms : list MiddlewareFunc) :
  keepsHistogram h -> Forall foreignMiddleware ms ->
  keepsHistogram (Echo.applyMiddleware h ms).
Proof.
  intros Hh Hms. induction Hms as [|m ms Hm _ IH]; cbn; [exact Hh |].
  apply Hm, IH.
Qed.

(** What serving one request does to the histogram when the
    instrumentation is the outermost middleware. *)
Lemma served_histogram (srv : Echo.t) (rest : list MiddlewareFunc)
    (m p : string) (s : RState) :
  Echo.middleware srv = metricsMiddleware :: rest ->
  let c := {| Method := m; Path := p;
              HTTPErrorHandler := Echo.errorHandler srv |} in
  let s0 := setResponse emptyResponse s in
  let s1 := snd (Echo.applyMiddleware (Echo.find srv m p) rest c s0) in
  requestDuration (Echo.ServeHTTP srv m p s) =
  Prometheus.Observe (now s1 - now s) (requestDuration s1).
Proof.
  intros Hmw c s0 s1. unfold Echo.ServeHTTP. rewrite Hmw.
  cbn [Echo.applyMiddleware fold_right].
  fold (Echo.applyMiddleware (Echo.find srv m p) rest). fold c. fold s0.
  unfold metricsMiddleware. rewrite metricsMiddleware_run.
  subst s1. destruct (Echo.applyMiddleware (Echo.find srv m p) rest c s0)
    as [[e|] s1]; reflexivity.
Qed.

(** C10. The instrumentation is installed before the metrics route is
    registered, and a GET of [/prometheus] is served by the metrics handler
    inside the instrumentation: when the start-up calls have returned, no
    other package has registered a route for that very path, and the
    middlewares of other packages leave the histogram alone, serving one
    scrape raises the histogram's count by exactly 1. *)
Theorem scrape_is_counted (w : World) (conf : Config) (env : string)
    (r1 r2 r3 : Registration) (s : RState) :
  config_Load w = Returns (conf, env) ->
  firstFailure (firstn 9 (callsOf w)) = None ->
  router_Init w = Returns r1 ->
  middleware_InitLoggerMiddleware w = Returns r2 ->
  middleware_InitSessionMiddleware w = Returns r3 ->
  forallb (fun r => negb (Echo.exactMatch "GET" "/prometheus" r))
    (addRoutes r1 ++ addRoutes r2 ++ addRoutes r3) = true ->
  Forall foreignMiddleware
    (addMiddleware r1 ++ addMiddleware r2 ++ addMiddleware r3) ->
  precedes Do_Use_metricsMiddleware (Do_GET "/prometheus") (trace (run w)) = true /\
  Echo.applyMiddleware
    (Echo.find (serving (run w)) "GET" "/prometheus")
    (Echo.middleware (serving (run w))) =
  metricsMiddleware
    (Echo.applyMiddleware (WrapHandler Promhttp.Handler)
       (addMiddleware r1 ++ addMiddleware r2 ++ addMiddleware r3)) /\
  Prometheus.hcount
    (requestDuration (Echo.ServeHTTP (serving (run w)) "GET" "/prometheus" s)) =
  (Prometheus.hcount (requestDuration s) + 1)%N.
Proof.
  intros Hc Hall H1 H2 H3 Hroutes Hmws.
  destruct (serving_assembled w Hc Hall H1 H2 H3) as [Hsrv Hord].
  rewrite Hsrv. split; [exact Hord |].
  pose proof (assembled_middleware w conf r1 r2 r3) as Hmw.
  pose proof (assembled_find_prometheus w conf r1 r2 r3 Hroutes) as Hfind.
  split.
  - rewrite Hmw, Hfind. reflexivity.
  - rewrite (served_histogram _ "GET" "/prometheus" s Hmw), Hfind.
    cbn [Prometheus.Observe Prometheus.hcount].
    rewrite (chain_keepsHistogram prometheus_keepsHistogram Hmws).
    cbn. lia.
Qed.

Lemma scrape_is_counted_witness :
  Prometheus.hcount
    (requestDuration
       (Echo.ServeHTTP (serving (run bookService)) "GET" "/prometheus"
          (bootState goRuntime 0))) = 1%N.
Proof.
  refine (proj2 (proj2
    (@scrape_is_counted bookService {| StaticContentsPath := EmptyString |}
       "test" bookRoutes loggingOnly loggingOnly (bootState goRuntime 0)
       _ _ _ _ _ _ _))); try reflexivity.
  repeat constructor; intros next H; exact H.
Defined.

(** The scenario of the specification: three requests of 200 ms, 50 ms and
    10 ms, the last one failing, then a graceful shutdown. *)
Example three_requests :
  let s := serveAll (serving (run bookService))
             ["/api/books"; "/api/health"; "/api/fail"] (bootState goRuntime 0) in
  Prometheus.cvalue (errorCounter s) = 1%N /\
  Prometheus.hcount (requestDuration s) = 3%N /\
  Prometheus.hbuckets (requestDuration s) =
    [0; 1; 0; 1; 0; 1; 0; 0; 0; 0; 0]%N /\
  Prometheus.hsum (requestDuration s) = 260000000 /\
  occurrences Do_rep_Close (trace (run bookService)) = 1%nat /\
  status (run bookService) = ExitCode 0.
Proof. cbv zeta. repeat split; reflexivity. Qed.

(** *** The text that the endpoint serves *)

Lemma hasNewline_app (a b : string) :
  hasNewline (a ++ b)%string = hasNewline a || hasNewline b.
Proof.
  induction a as [|x a IH]; cbn; [reflexivity |].
  now rewrite IH, orb_assoc.
Qed.

Lemma uint_oneLine (d : Decimal.uint) :
  hasNewline (NilEmpty.string_of_uint d) = false.
Proof. induction d; cbn; auto. Qed.

Lemma fmtN_oneLine (n : N) : hasNewline (Prometheus.fmtN n) = false.
Proof.
  unfold Prometheus.fmtN, NilZero.string_of_uint.
  destruct (N.to_uint n) eqn:E; try reflexivity;
    rewrite <- E; apply uint_oneLine.
Qed.

Lemma digit_oneLine (d : Z) : Ascii.eqb (Prometheus.digit d) newline = false.
Proof.
  unfold Prometheus.digit.
  assert (H : 0 <= d mod 10 < 10) by (apply Z.mod_pos_bound; lia).
  assert (C : d mod 10 = 0 \/ d mod 10 = 1 \/ d mod 10 = 2 \/ d mod 10 = 3 \/
              d mod 10 = 4 \/ d mod 10 = 5 \/ d mod 10 = 6 \/ d mod 10 = 7 \/
              d mod 10 = 8 \/ d mod 10 = 9) by lia.
  repeat (destruct C as [C | C]; [rewrite C; reflexivity |]).
  rewrite C; reflexivity.
Qed.

Lemma fraction_oneLine (fuel : nat) (f scale : Z) :
  hasNewline (Prometheus.fraction fuel f scale) = false.
Proof.
  revert f scale. induction fuel as [|k IH]; intros f scale; cbn;
    [reflexivity |].
  destruct (f =? 0); cbn; [reflexivity |].
  now rewrite digit_oneLine, IH.
Qed.

Lemma fmtBound_oneLine (ns : Duration) :
  hasNewline (Prometheus.fmtBound ns) = false.
Proof.
  unfold Prometheus.fmtBound. cbv zeta.
  rewrite hasNewline_app.
  assert (Hsign : hasNewline (if ns <? 0 then "-" else EmptyString) = false)
    by (destruct (ns <? 0); reflexivity).
  rewrite Hsign.
  destruct (Z.abs ns mod 1000000000 =? 0).
  - apply fmtN_oneLine.
  - rewrite !hasNewline_app, fmtN_oneLine, fraction_oneLine. reflexivity.
Qed.

















Example exposition_after_boot :
  Promhttp.Gather (bootState goRuntime 0) =
  [ "# TYPE go_goroutines gauge"; "go_goroutines 1" ]
  ++ specCounterLines 0
  ++ specHistogramLines [0; 0; 0; 0; 0; 0; 0; 0; 0; 0; 0]%N "0" 0
  ++ [ "# TYPE process_open_fds gauge"; "process_open_fds 1";
       "# TYPE promhttp_metric_handler_requests_in_flight gauge";
       "promhttp_metric_handler_requests_in_flight 1" ].
Proof. reflexivity. Qed.

(** ** Requests served one after the other *)


(** ** Further properties of main *)

(** X2. Every run, however it ends, is an initial segment of the full sequence
    of steps, and it always gets as far as loading the configuration: the
    instrumentation and the metrics route are installed in every run. *)
Theorem run_is_initial_segment (w : World) :
  (exists rest,
     stepsOfRun (confOf w) (envOf w) (errOf w) = trace (run w) ++ rest) /\
  firstn 4 (trace (run w)) =
    [ Do_echo_New; Do_Use_metricsMiddleware; Do_GET "/prometheus";
      Do_config_Load ].
Proof.
  unfold confOf, envOf, errOf, stepsOfRun.
  by_calls_with w ltac:(split; [eexists; reflexivity | reflexivity]).
  destruct (String.eqb (StaticContentsPath cnf) EmptyString);
    destruct es as [[e|]| | |]; cbn;
    try (split; [eexists; reflexivity | reflexivity]);
    destruct rc as [[]| | |]; cbn;
    (split; [exists []; reflexivity | reflexivity]).
Qed.

(** X3. The error of the serve call is logged, once and with its message,
    exactly when every start-up call returns and the serve call returns a
    non-nil error; a serve call that panics, exits or is signalled logs
    nothing. *)
Theorem serve_error_logged (w : World) :
  filter isErrorf (trace (run w)) =
  match firstFailure (firstn 9 (callsOf w)), e_Start w with
  | None, Returns (Some e) => [ Do_Errorf ("Error starting server: " ++ e)%string ]
  | _, _ => []
  end.
Proof.
  by_calls_with w ltac:(reflexivity).
  destruct (String.eqb (StaticContentsPath cnf) EmptyString);
    destruct es as [[e|]| | |]; cbn; try reflexivity;
    destruct rc as [[]| | |]; reflexivity.
Qed.

Lemma assembled_routes (w : World) (conf : Config) (r1 r2 r3 : Registration) :
  Echo.routes (assembled w conf r1 r2 r3) =
  [ {| Echo.rMethod := "GET"; Echo.rPattern := Echo.Exact "/prometheus";
       Echo.rHandler := WrapHandler Promhttp.Handler |} ]
  ++ (addRoutes r1 ++ addRoutes r2 ++ addRoutes r3)
  ++ (if String.eqb (StaticContentsPath conf) EmptyString then []
      else [ {| Echo.rMethod := "GET"; Echo.rPattern := Echo.Wildcard "/";
                Echo.rHandler := files w "/" (StaticContentsPath conf) |} ]).
Proof.
  unfold assembled.
  destruct (String.eqb (StaticContentsPath conf) EmptyString); cbn;
    rewrite <- ?app_assoc, ?app_nil_r; reflexivity.
Qed.

Lemma unrouted_none (m p : string) (l : list Echo.Route) :
  unrouted p l = true ->
  Echo.lastMatch (Echo.exactMatch m p) l = None /\
  Echo.lastMatch (Echo.wildcardMatch m p) l = None /\
  existsb (Echo.pathMatch p) l = false.
Proof.
  unfold unrouted. intros Hl. rewrite forallb_forall in Hl.
  repeat split.
  - apply lastMatch_none, forallb_forall. intros r Hr.
    specialize (Hl r Hr). unfold Echo.exactMatch, Echo.pathMatch in *.
    destruct (Echo.rPattern r); [| now rewrite andb_false_r].
    apply negb_true_iff in Hl. now rewrite Hl, andb_false_r.
  - apply lastMatch_none, forallb_forall. intros r Hr.
    specialize (Hl r Hr). unfold Echo.wildcardMatch, Echo.pathMatch in *.
    destruct (Echo.rPattern r); [now rewrite andb_false_r |].
    apply negb_true_iff in Hl. now rewrite Hl, andb_false_r.
  - apply not_true_is_false. intros H. apply existsb_exists in H as (r & Hr & Hm).
    specialize (Hl r Hr). now rewrite Hm in Hl.
Qed.

(** X4. Static content is mounted, once and at the root, exactly when the
    configured path is not empty. A GET of a path that no registered route
    answers under any method then goes to the file handler of that path,
    and to the not-found handler when nothing is mounted. *)
Theorem static_mounted_iff_configured (w : World) (conf : Config)
    (env p : string) (r1 r2 r3 : Registration) :
  config_Load w = Returns (conf, env) ->
  firstFailure (firstn 9 (callsOf w)) = None ->
  router_Init w = Returns r1 ->
  middleware_InitLoggerMiddleware w = Returns r2 ->
  middleware_InitSessionMiddleware w = Returns r3 ->
  String.prefix "/" p = true ->
  String.eqb "/prometheus" p = false ->
  unrouted p (addRoutes r1 ++ addRoutes r2 ++ addRoutes r3) = true ->
  filter isStatic (trace (run w)) =
    (if String.eqb (StaticContentsPath conf) EmptyString then []
     else [ Do_Static "/" (StaticContentsPath conf) ]) /\
  Echo.find (serving (run w)) "GET" p =
    (if String.eqb (StaticContentsPath conf) EmptyString
     then Echo.NotFoundHandler
     else files w "/" (StaticContentsPath conf)).
Proof.
  intros Hc Hall H1 H2 H3 Hp Hprom Hun.
  destruct (serving_assembled w Hc Hall H1 H2 H3) as [Hsrv _].
  split.
  - clear Hsrv Hun Hp Hprom. revert Hc Hall H1 H2 H3.
    by_calls_with w ltac:(intros; discriminate).
    intros Hc _ _ _ _. injection Hc as -> _.
    destruct (String.eqb (StaticContentsPath conf) EmptyString);
      destruct es as [[e|]| | |]; cbn; try reflexivity;
      destruct rc as [[]| | |]; reflexivity.
  - rewrite Hsrv. destruct (unrouted_none "GET" _ _ Hun) as (E & W & X).
    unfold Echo.find. rewrite assembled_routes.
    set (R := addRoutes r1 ++ addRoutes r2 ++ addRoutes r3) in *.
    rewrite !lastMatch_app, !existsb_app, E, W, X.
    assert (P1 : Echo.lastMatch (Echo.exactMatch "GET" p)
                   [ {| Echo.rMethod := "GET";
                        Echo.rPattern := Echo.Exact "/prometheus";
                        Echo.rHandler := WrapHandler Promhttp.Handler |} ] = None).
    { unfold Echo.lastMatch, Echo.exactMatch.
      cbn [Echo.rMethod Echo.rPattern]. now rewrite Hprom, andb_false_r. }
    assert (P2 : Echo.lastMatch (Echo.wildcardMatch "GET" p)
                   [ {| Echo.rMethod := "GET";
                        Echo.rPattern := Echo.Exact "/prometheus";
                        Echo.rHandler := WrapHandler Promhttp.Handler |} ] = None).
    { unfold Echo.lastMatch, Echo.wildcardMatch.
      cbn [Echo.rMethod Echo.rPattern]. now rewrite andb_false_r. }
    assert (P3 : existsb (Echo.pathMatch p)
                   [ {| Echo.rMethod := "GET";
                        Echo.rPattern := Echo.Exact "/prometheus";
                        Echo.rHandler := WrapHandler Promhttp.Handler |} ] = false).
    { unfold existsb, Echo.pathMatch. cbn [Echo.rPattern].
      now rewrite Hprom. }
    rewrite P1, P2, P3.
    destruct (String.eqb (StaticContentsPath conf) EmptyString);
      [reflexivity |].
    unfold Echo.lastMatch, Echo.exactMatch, Echo.wildcardMatch.
    cbn [Echo.rMethod Echo.rPattern Echo.rHandler].
    rewrite Hp, andb_false_r, String.eqb_refl. reflexivity.
Qed.

Lemma static_mounted_iff_configured_witness :
  Echo.find (serving (run (bookServiceWithStatic "public"))) "GET" "/index.html"
    = noFiles "/" "public" /\
  Echo.find (serving (run bookService)) "GET" "/index.html"
    = Echo.NotFoundHandler.
Proof.
  split.
  - refine (proj2 (@static_mounted_iff_configured
      (bookServiceWithStatic "public") {| StaticContentsPath := "public" |}
      "test" "/index.html" bookRoutes loggingOnly loggingOnly
      _ _ _ _ _ _ _ _)); reflexivity.
  - refine (proj2 (@static_mounted_iff_configured
      bookService {| StaticContentsPath := EmptyString |}
      "test" "/index.html" bookRoutes loggingOnly loggingOnly
      _ _ _ _ _ _ _ _)); reflexivity.
Defined.

(** ** Further properties of the instrumentation *)



(** X6. Installing the instrumentation twice counts every request twice: two
    observations, and two increments of the error counter on a failure,
    while the handler still runs once and its result is still returned. *)
Theorem installed_twice_counts_twice (next : HandlerFunc) (c : Context)
    (s : RState) :
  let r := fst (next c s) in
  let s1 := snd (next c s) in
  let s2 := snd (metricsMiddleware (metricsMiddleware next) c s) in
  fst (metricsMiddleware (metricsMiddleware next) c s) = r /\
  Prometheus.hcount (requestDuration s2) =
    (Prometheus.hcount (requestDuration s1) + 2)%N /\
  Prometheus.cvalue (errorCounter s2) =
    (Prometheus.cvalue (errorCounter s1)
     + match r with Some _ => 2 | None => 0 end)%N /\
  errorHandled s2 =
    match r with
    | Some e => e :: e :: errorHandled s1
    | None => errorHandled s1
    end.
Proof.
  remember (metricsMiddleware next) as inner eqn:Hinner.
  unfold metricsMiddleware. rewrite metricsMiddleware_run.
  subst inner. unfold metricsMiddleware. rewrite metricsMiddleware_run.
  destruct (next c s) as [[e|] s1]; cbn; repeat split; lia.
Qed.

(** What serving one request does to the error counter when the
    instrumentation is the outermost middleware. *)
Lemma served_counter (srv : Echo.t) (rest : list MiddlewareFunc)
    (m p : string) (s : RState) :
  Echo.middleware srv = metricsMiddleware :: rest ->
  let c := {| Method := m; Path := p;
              HTTPErrorHandler := Echo.errorHandler srv |} in
  let s0 := setResponse emptyResponse s in
  let inner := Echo.applyMiddleware (Echo.find srv m p) rest c s0 in
  errorCounter (Echo.ServeHTTP srv m p s) =
  match fst inner with
  | Some _ => Prometheus.Inc (errorCounter (snd inner))
  | None => errorCounter (snd inner)
  end.
Proof.
  intros Hmw c s0 inner. unfold Echo.ServeHTTP. rewrite Hmw.
  cbn [Echo.applyMiddleware fold_right].
  fold (Echo.applyMiddleware (Echo.find srv m p) rest). fold c. fold s0.
  unfold metricsMiddleware. rewrite metricsMiddleware_run.
  subst inner. destruct (Echo.applyMiddleware (Echo.find srv m p) rest c s0)
    as [[e|] s1]; reflexivity.
Qed.

Lemma chain_keepsCounter (h : HandlerFunc) (ms : list MiddlewareFunc) :
  keepsCounter h -> Forall foreignToCounter ms ->
  keepsCounter (Echo.applyMiddleware h ms).
Proof.
  intros Hh Hms. induction Hms as [|m ms Hm _ IH]; cbn; [exact Hh |].
  apply Hm, IH.
Qed.

Lemma chain_alwaysFails (e : error) (h : HandlerFunc) (ms : list MiddlewareFunc) :
  alwaysFails e h -> Forall letsFailuresThrough ms ->
  alwaysFails e (Echo.applyMiddleware h ms).
Proof.
  intros Hh Hms. induction Hms as [|m ms Hm _ IH]; cbn; [exact Hh |].
  apply Hm, IH.
Qed.

Lemma unrouted_find (srv : Echo.t) (m p : string) :
  unrouted p (Echo.routes srv) = true ->
  Echo.find srv m p = Echo.NotFoundHandler.
Proof.
  intros H. destruct (unrouted_none m _ _ H) as (E & W & X).
  unfold Echo.find. now rewrite E, W, X.
Qed.

(** ** Further properties of served requests *)

(** X7. With echo's default error handler the second handling of a failing
    request changes nothing: the response is the one the first handling
    left, committed, and is the handler's own response when the handler
    had already committed one. *)
Theorem failing_response_written_once (srv : Echo.t)
    (rest : list MiddlewareFunc) (m p : string) (s s1 : RState) (e : error) :
  let c := {| Method := m; Path := p;
              HTTPErrorHandler := Echo.errorHandler srv |} in
  Echo.middleware srv = metricsMiddleware :: rest ->
  Echo.errorHandler srv = Echo.DefaultHTTPErrorHandler ->
  Echo.applyMiddleware (Echo.find srv m p) rest c
    (setResponse emptyResponse s) = (Some e, s1) ->
  response (Echo.ServeHTTP srv m p s) =
    Echo.DefaultHTTPErrorHandler e (response s1) /\
  Committed (response (Echo.ServeHTTP srv m p s)) = true /\
  (Committed (response s1) = true ->
   response (Echo.ServeHTTP srv m p s) = response s1).
Proof.
  intros c Hmw Heh Hinner. unfold Echo.ServeHTTP. rewrite Hmw.
  cbn [Echo.applyMiddleware fold_right].
  fold (Echo.applyMiddleware (Echo.find srv m p) rest). fold c.
  unfold metricsMiddleware. rewrite metricsMiddleware_run, Hinner.
  subst c. cbn. rewrite Heh. unfold Echo.DefaultHTTPErrorHandler.
  destruct (Committed (response s1)) eqn:E; cbn; rewrite ?E; repeat split.
  intros H; discriminate H.
Qed.

Lemma failing_response_written_once_witness :
  Committed
    (response
       (Echo.ServeHTTP (serving (run (fairWeather EmptyString (Returns None))))
          "GET" "/missing" (bootState goRuntime 0))) = true.
Proof.
  refine (proj1 (proj2 (@failing_response_written_once
    (serving (run (fairWeather EmptyString (Returns None)))) []
    "GET" "/missing" (bootState goRuntime 0)
    (setResponse emptyResponse (bootState goRuntime 0)) "Not Found" _ _ _)));
    reflexivity.
Defined.

(** X8. A request for a path that no route answers under any method is
    counted as an error, whatever its own method: the not-found handler
    runs inside the instrumentation, so the error counter and the histogram
    count both grow by exactly 1, and the not-found error is handled
    twice. *)
Theorem unrouted_request_counted_as_error (srv : Echo.t)
    (rest : list MiddlewareFunc) (m p : string) (s : RState) :
  Echo.middleware srv = metricsMiddleware :: rest ->
  unrouted p (Echo.routes srv) = true ->
  Forall letsFailuresThrough rest ->
  Forall foreignToCounter rest ->
  Forall foreignMiddleware rest ->
  Prometheus.cvalue (errorCounter (Echo.ServeHTTP srv m p s)) =
    (Prometheus.cvalue (errorCounter s) + 1)%N /\
  Prometheus.hcount (requestDuration (Echo.ServeHTTP srv m p s)) =
    (Prometheus.hcount (requestDuration s) + 1)%N /\
  firstn 2 (errorHandled (Echo.ServeHTTP srv m p s)) =
    ["Not Found"; "Not Found"].
Proof.
  intros Hmw Hun Hfail Hcnt Hhist.
  pose proof (unrouted_find srv m p Hun) as Hfind.
  assert (HF : alwaysFails "Not Found" Echo.NotFoundHandler)
    by (intros c0 s0; reflexivity).
  assert (HC : keepsCounter Echo.NotFoundHandler)
    by (intros c0 s0; reflexivity).
  assert (HH : keepsHistogram Echo.NotFoundHandler)
    by (intros c0 s0; reflexivity).
  pose proof (chain_alwaysFails HF Hfail) as CF.
  pose proof (chain_keepsCounter HC Hcnt) as CC.
  pose proof (chain_keepsHistogram HH Hhist) as CH.
  repeat split.
  - rewrite (served_counter _ m p s Hmw), Hfind, CF, CC. cbn. lia.
  - rewrite (served_histogram _ m p s Hmw), Hfind.
    cbn [Prometheus.Observe Prometheus.hcount]. rewrite CH. cbn. lia.
  - unfold Echo.ServeHTTP. rewrite Hmw, Hfind.
    cbn [Echo.applyMiddleware fold_right].
    fold (Echo.applyMiddleware Echo.NotFoundHandler rest).
    unfold metricsMiddleware. rewrite metricsMiddleware_run.
    set (c := {| Method := m; Path := p;
                 HTTPErrorHandler := Echo.errorHandler srv |}).
    specialize (CF c (setResponse emptyResponse s)).
    destruct (Echo.applyMiddleware Echo.NotFoundHandler rest c
                (setResponse emptyResponse s)) as [[e|] s1];
      cbn in CF; [| discriminate].
    injection CF as ->. reflexivity.
Qed.

Lemma unrouted_request_counted_as_error_witness :
  Prometheus.cvalue
    (errorCounter (Echo.ServeHTTP (serving (run bookService))
                     "GET" "/favicon.ico" (bootState goRuntime 0))) = 1%N.
Proof.
  refine (proj1 (@unrouted_request_counted_as_error
    (serving (run bookService)) [passThrough; passThrough]
    "GET" "/favicon.ico" (bootState goRuntime 0) _ _ _ _ _));
    try reflexivity; repeat constructor; intros next; intros; assumption.
Defined.










